(** * get_onnx_info.py: the shape reporter

    A shallow embedding of [Docker/scripts/get_onnx_info.py] and the
    properties of its output.  The script parses one positional argument,
    loads the ONNX model it names and prints one [-d <name> <shape>] record
    per graph input.

    Layout: the ONNX messages the script reads, the Python formatting it
    relies on, a small state-and-exit monad for the process, the vocabulary
    used to talk about the output (lines, regular expressions), sample
    models on a sample disk, the script itself, and then the theorems,
    first in general and then on the samples. *)

From Stdlib Require Import ZArith List String Ascii Bool Lia.
From Stdlib Require Import DecimalString DecimalPos DecimalZ.
From Stdlib Require Import Strings.Byte.
Import ListNotations.
Open Scope string_scope.

(** ** ONNX messages

    Records follow onnx.proto, restricted to the fields that matter here
    and to enough of the rest of a model to tell two models apart.  A
    protobuf accessor never fails: reading a scalar that is not set yields
    the type's default, reading a sub-message that is not set yields the
    empty message.  The stored presence information is kept, and the
    accessors the script calls are functions over it. *)

(** [TensorShapeProto.Dimension]: the [value] oneof. *)
Inductive DimensionValue : Type :=
| dim_value_set (v : Z)
| dim_param_set (p : string)
| value_not_set.

Record Dimension : Type := {
  value : DimensionValue;
  denotation : string
}.

(** [dim.dim_value]: the int64 member of the oneof, 0 when another member
    (or none) is set. *)
Definition dim_value (d : Dimension) : Z :=
  match value d with
  | dim_value_set v => v
  | dim_param_set _ => 0
  | value_not_set => 0
  end.

Definition dim_param (d : Dimension) : string :=
  match value d with
  | dim_param_set p => p
  | _ => ""
  end.

Record TensorShapeProto : Type := {
  dim : list Dimension
}.

(** [TypeProto.Tensor]; [shape] is an optional sub-message. *)
Record Tensor : Type := {
  elem_type : Z;
  shape_opt : option TensorShapeProto
}.

Definition shape (t : Tensor) : TensorShapeProto :=
  match shape_opt t with
  | Some s => s
  | None => {| dim := [] |}
  end.

(** [TypeProto]: the [value] oneof. *)
Inductive TypeProto : Type :=
| tensor_type_set (t : Tensor)
| sequence_type_set (elem : TypeProto)
| map_type_set (key_type : Z) (value_type : TypeProto)
| optional_type_set (elem : TypeProto)
| sparse_tensor_type_set (t : Tensor)
| type_not_set.

(** [type.tensor_type]: the tensor member, the empty [Tensor] when the
    oneof holds something else. *)
Definition tensor_type (ty : TypeProto) : Tensor :=
  match ty with
  | tensor_type_set t => t
  | _ => {| elem_type := 0; shape_opt := None |}
  end.

Record ValueInfoProto : Type := {
  name : string;
  type : TypeProto;
  doc_string : string
}.

Record TensorProto : Type := {
  dims : list Z;
  data_type : Z;
  tensor_name : string;
  raw_data : list byte
}.

Record NodeProto : Type := {
  node_input : list string;
  node_output : list string;
  node_name : string;
  op_type : string
}.

Record GraphProto : Type := {
  node : list NodeProto;
  graph_name : string;
  initializer : list TensorProto;
  input : list ValueInfoProto;
  output : list ValueInfoProto;
  value_info : list ValueInfoProto
}.

Record ModelProto : Type := {
  ir_version : Z;
  producer_name : string;
  producer_version : string;
  model_version : Z;
  graph : GraphProto
}.

(** ** Python values and their text *)

(** The line feed [print] ends a record with. *)
Definition LF : ascii := "010"%char.
Definition newline : string := String LF "".

(** [int(x)] on a value that already is a Python int. *)
Definition int (v : Z) : Z := v.

(** [repr] of an int: decimal digits, a leading minus sign when negative. *)
Definition repr_int (v : Z) : string :=
  NilZero.string_of_int (Z.to_int v).

(** [repr] of a list of ints, which is also what an f-string field shows:
    the items' [repr] joined by a comma and a space, in brackets. *)
Definition repr_list (l : list Z) : string :=
  "[" ++ String.concat ", " (map repr_int l) ++ "]".

(** ** The process: state, exits and the calls the script makes *)

(** What a path names on disk. *)
Inductive file : Type :=
| Absent
| Unreadable
| Content (bytes : list byte).

Inductive exn : Type :=
| FileNotFoundError (path : string)
| PermissionError (path : string)
| DecodeError.

(** How a computation stops early: an exception on its way up, or
    [sys.exit]. *)
Inductive signal : Type :=
| Raised (e : exn)
| SystemExit (code : Z).

(** Everything a run can touch: the disk, what went out on the network,
    the two output streams, and the model object once it is loaded. *)
Record state : Type := {
  disk : string -> file;
  network : list (list byte);
  stdout : string;
  stderr : string;
  model_obj : option ModelProto
}.

Definition M (A : Type) : Type := state -> (signal + A) * state.

Definition ret {A} (a : A) : M A := fun st => (inr a, st).

Definition bind {A B} (c : M A) (k : A -> M B) : M B :=
  fun st =>
    match c st with
    | (inr a, st') => k a st'
    | (inl s, st') => (inl s, st')
    end.

Notation "x <- c1 ;; c2" := (bind c1 (fun x => c2))
  (at level 61, c1 at next level, right associativity).
Notation "c1 ;; c2" := (bind c1 (fun _ => c2))
  (at level 61, right associativity).

Definition raise {A} (e : exn) : M A := fun st => (inl (Raised e), st).

Definition sys_exit {A} (code : Z) : M A :=
  fun st => (inl (SystemExit code), st).

Definition write_stdout (s : string) : M unit :=
  fun st =>
    (inr tt, {| disk := disk st; network := network st;
                stdout := stdout st ++ s; stderr := stderr st;
                model_obj := model_obj st |}).

Definition write_stderr (s : string) : M unit :=
  fun st =>
    (inr tt, {| disk := disk st; network := network st;
                stdout := stdout st; stderr := stderr st ++ s;
                model_obj := model_obj st |}).

(** [print(s)]: the text and a line feed, on standard output. *)
Definition print (s : string) : M unit := write_stdout (s ++ newline).

(** [for x in l: body]. *)
Fixpoint for_each {A} (l : list A) (body : A -> M unit) : M unit :=
  match l with
  | [] => ret tt
  | x :: l' => body x ;; for_each l' body
  end.

(** [argparse.Namespace] of this parser: the one positional. *)
Record Namespace : Type := {
  onnxfile : string
}.

(** What [parse_args] comes to: the namespace, or text on the streams and
    an exit code. *)
Inductive parsed : Type :=
| Parsed (args : Namespace)
| Exits (code : Z) (out err : string).

(** An argument that argparse may read as an option: it starts with the
    prefix character. *)
Definition optional_like (arg : string) : bool := prefix "-" arg.

(** A fresh process over a disk and a network log. *)
Definition fresh (d : string -> file) (n : list (list byte)) : state :=
  {| disk := d; network := n; stdout := ""; stderr := "";
     model_obj := None |}.

(** ** Talking about the output: characters, lines, patterns *)

Fixpoint all_chars (p : ascii -> bool) (s : string) : bool :=
  match s with
  | "" => true
  | String c s' => p c && all_chars p s'
  end.

(** A text without the character [c] in it. *)
Definition lacks (c : ascii) (s : string) : bool :=
  all_chars (fun x => negb (Ascii.eqb x c)) s.

(** The number of line feeds in a text. *)
Fixpoint count_newlines (s : string) : nat :=
  match s with
  | "" => 0
  | String c s' => (if Ascii.eqb c LF then 1 else 0) + count_newlines s'
  end.

(** A text without a line feed in it. *)
Definition no_newline (s : string) : bool :=
  all_chars (fun c => negb (Ascii.eqb c LF)) s.

(** The lines of a text: one for every line feed (the text before it, since
    the previous one), and one more for what follows the last line feed
    when that is not empty. *)
Fixpoint lines (s : string) : list string :=
  match s with
  | "" => []
  | String c s' =>
      if Ascii.eqb c LF then "" :: lines s'
      else
        match lines s' with
        | [] => [String c ""]
        | l :: ls => String c l :: ls
        end
  end.

(** Records written one after the other, each ended by a line feed. *)
Fixpoint unlines (ls : list string) : string :=
  match ls with
  | [] => ""
  | l :: ls' => l ++ newline ++ unlines ls'
  end.

(** The [-d] records among the lines of a text. *)
Definition d_lines (out : string) : list string :=
  filter (prefix "-d") (lines out).

(** Regular expressions over characters, with the usual meaning. *)
Inductive regex : Type :=
| Void
| Eps
| Class (p : ascii -> bool)
| Cat (r1 r2 : regex)
| Alt (r1 r2 : regex)
| Star (r : regex).

Inductive matches : regex -> string -> Prop :=
| m_eps : matches Eps ""
| m_class p c : p c = true -> matches (Class p) (String c "")
| m_cat r1 r2 s1 s2 :
    matches r1 s1 -> matches r2 s2 -> matches (Cat r1 r2) (s1 ++ s2)
| m_alt_l r1 r2 s : matches r1 s -> matches (Alt r1 r2) s
| m_alt_r r1 r2 s : matches r2 s -> matches (Alt r1 r2) s
| m_star_nil r : matches (Star r) ""
| m_star_app r s1 s2 :
    matches r s1 -> matches (Star r) s2 -> matches (Star r) (s1 ++ s2).

(** Matching by derivatives, to decide [matches] on a given text. *)
Fixpoint nullable (r : regex) : bool :=
  match r with
  | Void => false
  | Eps => true
  | Class _ => false
  | Cat r1 r2 => nullable r1 && nullable r2
  | Alt r1 r2 => nullable r1 || nullable r2
  | Star _ => true
  end.

Fixpoint deriv (c : ascii) (r : regex) : regex :=
  match r with
  | Void => Void
  | Eps => Void
  | Class p => if p c then Eps else Void
  | Cat r1 r2 =>
      if nullable r1 then Alt (Cat (deriv c r1) r2) (deriv c r2)
      else Cat (deriv c r1) r2
  | Alt r1 r2 => Alt (deriv c r1) (deriv c r2)
  | Star r' => Cat (deriv c r') (Star r')
  end.

Fixpoint matchb (r : regex) (s : string) : bool :=
  match s with
  | "" => nullable r
  | String c s' => matchb (deriv c r) s'
  end.

Definition Chr (c : ascii) : regex := Class (Ascii.eqb c).

Fixpoint Lit (s : string) : regex :=
  match s with
  | "" => Eps
  | String c s' => Cat (Chr c) (Lit s')
  end.

(** A character that can stand inside a line: any but the line feed. *)
Definition in_line : regex := Class (fun c => negb (Ascii.eqb c LF)).

Definition is_digit (c : ascii) : bool :=
  (48 <=? nat_of_ascii c)%nat && (nat_of_ascii c <=? 57)%nat.

Definition digit : regex := Class is_digit.

(** [<int>]: an optional minus sign and one or more digits. *)
Definition int_re : regex :=
  Cat (Alt Eps (Chr "-")) (Cat digit (Star digit)).

(** [<int>(, <int>)*] *)
Definition ints_re : regex :=
  Cat int_re (Star (Cat (Lit ", ") int_re)).

(** [-d <name> [<int>(, <int>)*]] as the pattern of a line: any text
    without a line feed for the name. *)
Definition flag_pattern : regex :=
  Cat (Lit "-d ")
    (Cat (Star in_line)
       (Cat (Lit " [") (Cat ints_re (Chr "]")))).

(** [-d <name> []] as the pattern of a line. *)
Definition empty_shape_pattern : regex :=
  Cat (Lit "-d ") (Cat (Star in_line) (Lit " []")).

(** Well-formed UTF-8, as a strict decoder accepts it: no stray or missing
    continuation byte, no overlong form, no surrogate, nothing above
    U+10FFFF.  Of a name that is well-formed the script holds the text,
    which an f-string writes as it is. *)
Definition byte_in (lo hi : nat) (c : ascii) : bool :=
  (lo <=? nat_of_ascii c)%nat && (nat_of_ascii c <=? hi)%nat.

Definition continuation (c : ascii) : bool := byte_in 128 191 c.

(** The first two bytes of a three-byte form. *)
Definition lead3 (a b : ascii) : bool :=
  (byte_in 224 224 a && byte_in 160 191 b) ||
  (byte_in 225 236 a && byte_in 128 191 b) ||
  (byte_in 237 237 a && byte_in 128 159 b) ||
  (byte_in 238 239 a && byte_in 128 191 b).

(** The first two bytes of a four-byte form. *)
Definition lead4 (a b : ascii) : bool :=
  (byte_in 240 240 a && byte_in 144 191 b) ||
  (byte_in 241 243 a && byte_in 128 191 b) ||
  (byte_in 244 244 a && byte_in 128 143 b).

Fixpoint utf8 (s : string) : bool :=
  match s with
  | "" => true
  | String a s1 =>
      if byte_in 0 127 a then utf8 s1
      else
        match s1 with
        | "" => false
        | String b s2 =>
            if byte_in 194 223 a then continuation b && utf8 s2
            else
              match s2 with
              | "" => false
              | String c s3 =>
                  if lead3 a b then continuation c && utf8 s3
                  else
                    match s3 with
                    | "" => false
                    | String e s4 =>
                        lead4 a b && continuation c && continuation e &&
                        utf8 s4
                    end
              end
        end
  end.

(** What the program reads of a model: per input, its name and the integer
    value of each of its dimensions. *)
Definition input_view (m : ModelProto) : list (string * list Z) :=
  map (fun vi => (name vi, map dim_value (dim (shape (tensor_type (type vi))))))
      (input (graph m)).

(** ** Sample models and a sample machine

    Concrete models, a disk holding them and stand-ins for the library
    parameters, on which the theorems below are exercised. *)

Definition fixed (v : Z) : Dimension :=
  {| value := dim_value_set v; denotation := "" |}.

Definition symbolic (p : string) : Dimension :=
  {| value := dim_param_set p; denotation := "" |}.

Definition tensor_input (nm : string) (ds : list Dimension) : ValueInfoProto :=
  {| name := nm;
     type := tensor_type_set {| elem_type := 1; shape_opt := Some {| dim := ds |} |};
     doc_string := "" |}.

Definition model_of (ins : list ValueInfoProto) : ModelProto :=
  {| ir_version := 8; producer_name := "pytorch"; producer_version := "2.1";
     model_version := 0;
     graph := {| node := []; graph_name := "main_graph"; initializer := [];
                 input := ins; output := []; value_info := [] |} |}.

Definition image_input : ValueInfoProto :=
  tensor_input "input" [fixed 1; fixed 3; fixed 224; fixed 224].

(** Two inputs, both with fixed shapes. *)
Definition image_model : ModelProto :=
  model_of [image_input; tensor_input "mask" [fixed 1; fixed 224]].

(** The same inputs in a model that differs everywhere else: a node, a
    weight, an output, other metadata, and a denotation on a dimension. *)
Definition retrained_model : ModelProto :=
  {| ir_version := 9; producer_name := "tf2onnx"; producer_version := "1.16";
     model_version := 3;
     graph :=
       {| node := [ {| node_input := ["input"; "w"]; node_output := ["y"];
                       node_name := "conv0"; op_type := "Conv" |} ];
          graph_name := "retrained";
          initializer := [ {| dims := [8; 3; 3; 3]%Z; data_type := 1;
                              tensor_name := "w"; raw_data := [x00; x01] |} ];
          input :=
            [ {| name := "input";
                 type := tensor_type_set
                   {| elem_type := 10;
                      shape_opt := Some {| dim :=
                        [ {| value := dim_value_set 1; denotation := "DATA_BATCH" |};
                          fixed 3; fixed 224; fixed 224 ] |} |};
                 doc_string := "image" |};
              tensor_input "mask" [fixed 1; fixed 224] ];
          output := [tensor_input "y" [fixed 1; fixed 8]];
          value_info := [] |} |}.

(** One input that is a scalar: a tensor type whose shape has no
    dimension. *)
Definition scalar_model : ModelProto := model_of [tensor_input "x" []].

(** One input whose name holds a line feed. *)
Definition split_model : ModelProto :=
  model_of [tensor_input ("a" ++ newline ++ "b") [fixed 1]].

(** One input with a symbolic batch dimension and one that is not set. *)
Definition dynamic_model : ModelProto :=
  model_of [tensor_input "tokens"
              [symbolic "batch"; fixed 128;
               {| value := value_not_set; denotation := "" |}]].

Definition empty_model : ModelProto := model_of [].

(** Inputs that are not plain tensors: a sparse tensor with a shape of its
    own, a sequence of tensors, and a tensor whose shape is not given. *)
Definition sparse_input : ValueInfoProto :=
  {| name := "adjacency";
     type := sparse_tensor_type_set
               {| elem_type := 1;
                  shape_opt := Some {| dim := [fixed 3; fixed 4] |} |};
     doc_string := "" |}.

Definition unranked_input : ValueInfoProto :=
  {| name := "features";
     type := tensor_type_set {| elem_type := 1; shape_opt := None |};
     doc_string := "" |}.

Definition sparse_model : ModelProto :=
  model_of
    [ sparse_input;
      {| name := "frames";
         type := sequence_type_set
                   (tensor_type_set
                      {| elem_type := 1;
                         shape_opt := Some {| dim := [fixed 2] |} |});
         doc_string := "" |};
      unranked_input ].

Definition sample_decoder (bytes : list byte) : option ModelProto :=
  match bytes with
  | [] => Some empty_model
  | [x01] => Some image_model
  | [x02] => Some scalar_model
  | [x03] => Some split_model
  | [x04] => Some dynamic_model
  | [x05] => Some retrained_model
  | _ => None
  end.

Definition sample_files : list (string * file) :=
  [ ("model.onnx", Content [x01]);
    ("scalar.onnx", Content [x02]);
    ("split.onnx", Content [x03]);
    ("dynamic.onnx", Content [x04]);
    ("retrained.onnx", Content [x05]);
    ("copy.onnx", Content [x01]);
    ("empty.onnx", Content []);
    ("notes.txt", Content [x68; x69]);
    ("locked.onnx", Unreadable) ].

Fixpoint lookup_file (files : list (string * file)) (path : string) : file :=
  match files with
  | [] => Absent
  | (p, f) :: files' => if String.eqb p path then f else lookup_file files' path
  end.

Definition sample_disk : string -> file := lookup_file sample_files.

Definition sample_prog : string := "get_onnx_info.py".

Definition sample_traceback (e : exn) : string :=
  "Traceback (most recent call last):" ++ newline ++
  match e with
  | FileNotFoundError path =>
      "FileNotFoundError: [Errno 2] No such file or directory: '" ++ path ++ "'"
  | PermissionError path =>
      "PermissionError: [Errno 13] Permission denied: '" ++ path ++ "'"
  | DecodeError => "google.protobuf.message.DecodeError: Error parsing message"
  end ++ newline.

Definition sample_optionals (argv : list string) : parsed :=
  Exits 2 "" ("usage: get_onnx_info.py [-h] onnxfile" ++ newline).

(** On the sample machine every path goes to the protobuf decoder and no
    model keeps data outside its file. *)
Definition sample_serializer (path : string)
    : option (list byte -> option ModelProto) := None.

Definition sample_external (path : string) (m : ModelProto) : list string :=
  [].

Definition sample_attach (m : ModelProto) (data : list (list byte))
    : ModelProto := m.

(** A second machine.  Paths ending in [.textproto] go to a text
    serializer, which takes none of the sample files (they are binary).
    A tensor that comes without data keeps them in [weights.bin], next to
    the model file, and the load reads them in. *)
Definition ends_with (suffix s : string) : bool :=
  String.eqb
    (substring (String.length s - String.length suffix)
       (String.length suffix) s)
    suffix.

Definition by_extension (path : string)
    : option (list byte -> option ModelProto) :=
  if ends_with ".textproto" path then Some (fun _ => None) else None.

Definition kept_outside (t : TensorProto) : bool :=
  match raw_data t with
  | [] => true
  | _ :: _ => false
  end.

Definition weights_outside (path : string) (m : ModelProto) : list string :=
  map (fun _ => "weights.bin") (filter kept_outside (initializer (graph m))).

Fixpoint fill_weights (ts : list TensorProto) (data : list (list byte))
    : list TensorProto :=
  match ts with
  | [] => []
  | t :: ts' =>
      match kept_outside t, data with
      | true, bytes :: data' =>
          {| dims := dims t; data_type := data_type t;
             tensor_name := tensor_name t; raw_data := bytes |}
          :: fill_weights ts' data'
      | _, _ => t :: fill_weights ts' data
      end
  end.

Definition read_weights (m : ModelProto) (data : list (list byte))
    : ModelProto :=
  {| ir_version := ir_version m; producer_name := producer_name m;
     producer_version := producer_version m;
     model_version := model_version m;
     graph :=
       {| node := node (graph m); graph_name := graph_name (graph m);
          initializer := fill_weights (initializer (graph m)) data;
          input := input (graph m); output := output (graph m);
          value_info := value_info (graph m) |} |}.

(** The image model with a weight that is kept outside the file. *)
Definition outside_model : ModelProto :=
  {| ir_version := 8; producer_name := "pytorch"; producer_version := "2.1";
     model_version := 0;
     graph :=
       {| node := []; graph_name := "main_graph";
          initializer := [ {| dims := [2]%Z; data_type := 2;
                              tensor_name := "w"; raw_data := [] |} ];
          input := [image_input]; output := []; value_info := [] |} |}.

Definition second_decoder (bytes : list byte) : option ModelProto :=
  match bytes with
  | [x06] => Some outside_model
  | _ => sample_decoder bytes
  end.

(** The sample disk with that model in [big.onnx] and with a copy of
    [model.onnx] under another extension, but without the weights; the
    same with the weights; and the latter without [notes.txt]. *)
Definition bare_files : list (string * file) :=
  ("big.onnx", Content [x06]) ::
  ("copy.textproto", Content [x01]) :: sample_files.

Definition bare_disk : string -> file := lookup_file bare_files.

Definition second_disk : string -> file :=
  lookup_file (("weights.bin", Content [x00; x01]) :: bare_files).

Definition third_disk : string -> file :=
  lookup_file
    (("notes.txt", Absent) ::
     ("weights.bin", Content [x00; x01]) :: bare_files).

Section Script.

(** The name the script was started under ([sys.argv[0]]'s base name). *)
Variable prog : string.

(** The protobuf decoder behind [onnx.load]: [None] when the bytes are
    not a well-formed [ModelProto]. *)
Variable ParseFromString : list byte -> option ModelProto.

(** The interpreter's rendering of an uncaught exception. *)
Variable traceback : exn -> string.

(** [argparse] on a command line with an option-like argument ([-h],
    [--], an unknown flag ...): left to the library. *)
Variable parse_optionals : list string -> parsed.

(** The serializer [onnx.load] picks for a path by its extension when that
    is not the protobuf one (text, JSON ...); [None] stands for protobuf. *)
Variable serializer : string -> option (list byte -> option ModelProto).

(** The files holding the data of the tensors a model keeps outside the
    model file, as [onnx.load] resolves them against the directory of the
    model file, in the order it reads them. *)
Variable external_data_files : string -> ModelProto -> list string.

(** [load_external_data_for_model]: the model once the contents of those
    files are read into its tensors. *)
Variable load_external_data_for_model :
  ModelProto -> list (list byte) -> ModelProto.

Definition usage : string := "usage: " ++ prog ++ " [-h] onnxfile" ++ newline.

(** [parser.error(message)]: usage and message for standard error. *)
Definition error (message : string) : string :=
  usage ++ prog ++ ": error: " ++ message ++ newline.

(** The parser built by the script: a description, and the positional
    [onnxfile] of type [str].  Without option-like arguments the first
    argument fills the positional; a missing positional and left-over
    arguments are errors with exit code 2. *)
Definition argparse (argv : list string) : parsed :=
  if existsb optional_like argv then parse_optionals argv
  else
    match argv with
    | [] => Exits 2 "" (error "the following arguments are required: onnxfile")
    | [p] => Parsed {| onnxfile := p |}
    | _ :: extras =>
        Exits 2 "" (error ("unrecognized arguments: " ++ String.concat " " extras))
    end.

(** [parser.parse_args()]. *)
Definition parse_args (argv : list string) : M Namespace :=
  match argparse argv with
  | Parsed args => ret args
  | Exits code out err =>
      write_stdout out ;; write_stderr err ;; sys_exit code
  end.

(** The bytes of a file, decoded by the serializer of its path. *)
Definition deserialize (path : string) (bytes : list byte)
    : option ModelProto :=
  match serializer path with
  | Some parse => parse bytes
  | None => ParseFromString bytes
  end.

(** Reading files one after the other: the first that is missing or
    cannot be read raises. *)
Fixpoint read_files (d : string -> file) (paths : list string)
    : exn + list (list byte) :=
  match paths with
  | [] => inr []
  | p :: paths' =>
      match d p with
      | Absent => inl (FileNotFoundError p)
      | Unreadable => inl (PermissionError p)
      | Content bytes =>
          match read_files d paths' with
          | inl e => inl e
          | inr rest => inr (bytes :: rest)
          end
      end
  end.

(** What [onnx.load(path)] comes to on a disk: open and read the file,
    decode its bytes with the serializer of the path, then read in the
    data of the tensors kept in files of their own.  A missing file, one
    that cannot be read and bytes that do not decode each raise. *)
Definition load_model (d : string -> file) (path : string)
    : exn + ModelProto :=
  match d path with
  | Absent => inl (FileNotFoundError path)
  | Unreadable => inl (PermissionError path)
  | Content bytes =>
      match deserialize path bytes with
      | None => inl DecodeError
      | Some model =>
          match read_files d (external_data_files path model) with
          | inl e => inl e
          | inr data => inr (load_external_data_for_model model data)
          end
      end
  end.

(** [onnx.load(path)]: the model object, or the exception. *)
Definition onnx_load (path : string) : M ModelProto :=
  fun st =>
    match load_model (disk st) path with
    | inl e => raise e st
    | inr m =>
        (inr m, {| disk := disk st; network := network st;
                   stdout := stdout st; stderr := stderr st;
                   model_obj := Some m |})
    end.

(** [[int(dim.dim_value) for dim in input.type.tensor_type.shape.dim]] *)
Definition shape_of (input : ValueInfoProto) : list Z :=
  map (fun dim => int (dim_value dim)) (dim (shape (tensor_type (type input)))).

(** [f"-d {input_name} {shape}"], for a name the script holds as text, as
    it does every name that is well-formed UTF-8: the name goes out as it
    is. *)
Definition f_string (input_name : string) (shape : list Z) : string :=
  "-d " ++ input_name ++ " " ++ repr_list shape.

(** The script, line by line. *)
Definition script (argv : list string) : M unit :=
  args <- parse_args argv ;;
  model <- onnx_load (onnxfile args) ;;
  for_each (input (graph model)) (fun input =>
    let input_name := name input in
    let shape := shape_of input in
    let res := f_string input_name shape in
    print res).

(** The interpreter around the script: exit status 0 at the end of the
    module, the code of a [SystemExit], and 1 with a traceback on
    standard error for an exception nobody caught. *)
Definition python (main : M unit) (st : state) : Z * state :=
  match main st with
  | (inr _, st') => (0%Z, st')
  | (inl (SystemExit code), st') => (code, st')
  | (inl (Raised e), st') =>
      (1%Z, {| disk := disk st'; network := network st';
               stdout := stdout st'; stderr := stderr st' ++ traceback e;
               model_obj := model_obj st' |})
  end.

(** One run of the program on a command line, from a fresh process. *)
Definition run (argv : list string) (d : string -> file)
    (n : list (list byte)) : Z * state :=
  python (script argv) (fresh d n).

(** The record printed for one input. *)
Definition record_of (input : ValueInfoProto) : string :=
  f_string (name input) (shape_of input).

(** The command line names a file that [onnx.load] turns into the model
    [m]: a run on a valid model file. *)
Definition loads (argv : list string) (d : string -> file)
    (m : ModelProto) : Prop :=
  exists args,
    argparse argv = Parsed args /\
    load_model d (onnxfile args) = inr m.

(** The command line names a file that is missing, cannot be read, or
    does not decode. *)
Definition load_fails (argv : list string) (d : string -> file) : Prop :=
  exists args,
    argparse argv = Parsed args /\
    (d (onnxfile args) = Absent \/
     d (onnxfile args) = Unreadable \/
     exists bytes, d (onnxfile args) = Content bytes /\
                   deserialize (onnxfile args) bytes = None).

(** ** Basic facts about texts *)

Lemma append_nil_r (s : string) : s ++ "" = s.
Proof. induction s as [|c s IH]; simpl; [reflexivity | now rewrite IH]. Qed.

Lemma append_assoc (s t u : string) : (s ++ t) ++ u = s ++ (t ++ u).
Proof. induction s as [|c s IH]; simpl; [reflexivity | now rewrite IH]. Qed.

Lemma all_chars_app p (s t : string) :
  all_chars p (s ++ t) = all_chars p s && all_chars p t.
Proof.
  induction s as [|c s IH]; simpl; [reflexivity |].
  now rewrite IH, andb_assoc.
Qed.

Lemma all_chars_weaken (p q : ascii -> bool) (s : string) :
  (forall c, p c = true -> q c = true) ->
  all_chars p s = true -> all_chars q s = true.
Proof.
  intros Hpq. induction s as [|c s IH]; simpl; [reflexivity |].
  intros H. apply andb_true_iff in H as [Hc Hs].
  apply andb_true_iff. split; [now apply Hpq | now apply IH].
Qed.

(** ** The loop *)

Lemma for_each_print {A} (f : A -> string) (l : list A) (st : state) :
  for_each l (fun x => print (f x)) st =
  (inr tt, {| disk := disk st; network := network st;
              stdout := stdout st ++ unlines (map f l);
              stderr := stderr st; model_obj := model_obj st |}).
Proof.
  revert st. induction l as [|x l IH]; intros st; simpl.
  - unfold ret. rewrite append_nil_r. now destruct st.
  - unfold bind, print, write_stdout at 1. rewrite IH. simpl.
    now rewrite !append_assoc.
Qed.

(** A run whose arguments parse and whose model loads: every record is
    printed, nothing else is written, the exit status is 0. *)
Lemma run_ok (argv : list string) (d : string -> file) n m :
  loads argv d m ->
  run argv d n =
  (0%Z, {| disk := d; network := n;
           stdout := unlines (map record_of (input (graph m)));
           stderr := ""; model_obj := Some m |}).
Proof.
  intros (args & Hargs & Hload).
  unfold run, python, script, bind, parse_args. rewrite Hargs.
  unfold ret, onnx_load. simpl. rewrite Hload.
  change (fun input0 : ValueInfoProto =>
            let input_name := name input0 in
            let shape0 := shape_of input0 in
            let res := f_string input_name shape0 in print res)
    with (fun x : ValueInfoProto => print (record_of x)).
  now rewrite for_each_print.
Qed.

(** A run whose model does not load: the exception reaches the
    interpreter, which reports it and exits with status 1. *)
Lemma run_load_raises (argv : list string) (d : string -> file) n args e :
  argparse argv = Parsed args ->
  load_model d (onnxfile args) = inl e ->
  run argv d n =
  (1%Z, {| disk := d; network := n; stdout := "";
           stderr := traceback e; model_obj := None |}).
Proof.
  intros Hargs Hload.
  unfold run, python, script, bind, parse_args. rewrite Hargs.
  unfold ret, onnx_load. simpl. now rewrite Hload.
Qed.

Lemma run_load_error (argv : list string) (d : string -> file) n :
  load_fails argv d ->
  exists e,
    run argv d n =
    (1%Z, {| disk := d; network := n; stdout := "";
             stderr := traceback e; model_obj := None |}).
Proof.
  intros (args & Hargs & Hfile).
  assert (Hload : exists e, load_model d (onnxfile args) = inl e).
  { unfold load_model.
    destruct Hfile as [H | [H | [bytes [H Hdec]]]]; rewrite H.
    - now exists (FileNotFoundError (onnxfile args)).
    - now exists (PermissionError (onnxfile args)).
    - rewrite Hdec. now exists DecodeError. }
  destruct Hload as [e Hload]. exists e.
  now apply (run_load_raises argv d n args e).
Qed.

(** A run that argparse ends: its text goes to the streams, its code is
    the exit status. *)
Lemma run_exits (argv : list string) (d : string -> file) n code out err :
  argparse argv = Exits code out err ->
  run argv d n =
  (code, {| disk := d; network := n; stdout := out; stderr := err;
            model_obj := None |}).
Proof.
  intros Hargs.
  unfold run, python, script, bind, parse_args. now rewrite Hargs.
Qed.

(** ** Lines *)

Lemma lines_record (l rest : string) :
  no_newline l = true ->
  lines (l ++ newline ++ rest) = l :: lines rest.
Proof.
  induction l as [|c l IH]; simpl in *; intros H.
  - reflexivity.
  - apply andb_true_iff in H as [Hc Hl].
    apply negb_true_iff in Hc. rewrite Hc.
    now rewrite (IH Hl).
Qed.

Lemma lines_unlines (ls : list string) :
  forallb no_newline ls = true -> lines (unlines ls) = ls.
Proof.
  induction ls as [|l ls IH]; intros H; [reflexivity |].
  cbn [forallb] in H. apply andb_true_iff in H as [Hl Hls].
  cbn [unlines]. now rewrite lines_record, IH.
Qed.

(** ** Regular expressions: [matchb] decides [matches] *)

Lemma append_eq_nil (s t : string) : s ++ t = "" -> s = "" /\ t = "".
Proof. destruct s; simpl; [auto | discriminate]. Qed.

Lemma matches_nullable r : matches r "" -> nullable r = true.
Proof.
  intros H. remember "" as e eqn:E. induction H; simpl; try reflexivity.
  - discriminate.
  - apply append_eq_nil in E as [E1 E2].
    now rewrite IHmatches1, IHmatches2.
  - now rewrite IHmatches.
  - rewrite IHmatches by assumption. apply orb_true_r.
Qed.

Lemma nullable_matches r : nullable r = true -> matches r "".
Proof.
  induction r; simpl; intros H; try discriminate.
  - constructor.
  - apply andb_true_iff in H as [H1 H2].
    change "" with ("" ++ ""). constructor; auto.
  - apply orb_true_iff in H as [H | H];
      [apply m_alt_l | apply m_alt_r]; auto.
  - constructor.
Qed.

Lemma matches_deriv r c s : matches r (String c s) -> matches (deriv c r) s.
Proof.
  intros H. remember (String c s) as cs eqn:E. revert c s E.
  induction H; intros c0 s0 E; simpl.
  - discriminate.
  - injection E as -> <-. rewrite H. constructor.
  - destruct s1 as [|a s1'].
    + simpl in E. rewrite (matches_nullable _ H).
      apply m_alt_r. now apply IHmatches2.
    + simpl in E. injection E as -> <-.
      destruct (nullable r1); [apply m_alt_l |];
        (constructor; [now apply IHmatches1 | assumption]).
  - apply m_alt_l. now apply IHmatches.
  - apply m_alt_r. now apply IHmatches.
  - discriminate.
  - destruct s1 as [|a s1'].
    + simpl in E. now apply IHmatches2.
    + simpl in E. injection E as -> <-.
      constructor; [now apply IHmatches1 | assumption].
Qed.

Lemma deriv_matches r c s : matches (deriv c r) s -> matches r (String c s).
Proof.
  revert s. induction r; simpl; intros s H.
  - inversion H.
  - inversion H.
  - destruct (p c) eqn:Hp; inversion H; subst. now constructor.
  - assert (Hcat : forall t, matches (Cat (deriv c r1) r2) t ->
                             matches (Cat r1 r2) (String c t)).
    { intros t Ht. inversion Ht; subst.
      change (String c (s1 ++ s2)) with (String c s1 ++ s2).
      constructor; auto. }
    destruct (nullable r1) eqn:Hn; [| now apply Hcat].
    inversion H; subst; [now apply Hcat |].
    change (String c s) with ("" ++ String c s).
    constructor; [now apply nullable_matches | auto].
  - inversion H; subst; [apply m_alt_l | apply m_alt_r]; auto.
  - inversion H; subst.
    change (String c (s1 ++ s2)) with (String c s1 ++ s2).
    constructor; auto.
Qed.

Lemma matchb_spec r s : matchb r s = true <-> matches r s.
Proof.
  revert r. induction s as [|c s IH]; intros r; simpl.
  - split; [apply nullable_matches | apply matches_nullable].
  - rewrite IH. split; [apply deriv_matches | apply matches_deriv].
Qed.

(** ** The text of ints and of lists of ints *)

Lemma string_of_uint_digits d :
  all_chars is_digit (NilEmpty.string_of_uint d) = true.
Proof. induction d; simpl; auto. Qed.

(** [repr] of an int is a digit followed by digits, after a minus sign
    for a negative one. *)
Lemma repr_int_shape v :
  exists c ds,
    is_digit c = true /\ all_chars is_digit ds = true /\
    (repr_int v = String c ds \/ repr_int v = String "-" (String c ds)).
Proof.
  assert (Hpos : forall p, exists c ds,
             is_digit c = true /\ all_chars is_digit ds = true /\
             NilZero.string_of_uint (Pos.to_uint p) = String c ds).
  { intros p. pose proof (Unsigned.to_uint_nonnil p) as Hn.
    destruct (Pos.to_uint p) as [|u|u|u|u|u|u|u|u|u|u];
      [contradiction | ..]; simpl;
      eexists _, _;
      (refine (conj _ (conj _ eq_refl));
       [reflexivity | apply string_of_uint_digits]). }
  destruct v as [|p|p]; unfold repr_int; simpl.
  - exists "0"%char, "". auto.
  - destruct (Hpos p) as (c & ds & Hc & Hds & E). exists c, ds. auto.
  - destruct (Hpos p) as (c & ds & Hc & Hds & E). exists c, ds.
    rewrite E. auto.
Qed.

Lemma is_digit_not_newline c :
  is_digit c = true -> negb (Ascii.eqb c LF) = true.
Proof.
  intros H. destruct (Ascii.eqb_spec c LF) as [-> | _];
    [discriminate | reflexivity].
Qed.

Lemma no_newline_repr_int v : no_newline (repr_int v) = true.
Proof.
  destruct (repr_int_shape v) as (c & ds & Hc & Hds & [E | E]);
    rewrite E; unfold no_newline; simpl;
    rewrite (is_digit_not_newline _ Hc);
    now rewrite (all_chars_weaken _ _ _ is_digit_not_newline Hds).
Qed.

Lemma no_newline_app (s t : string) :
  no_newline (s ++ t) = no_newline s && no_newline t.
Proof. apply all_chars_app. Qed.

Lemma no_newline_repr_list l : no_newline (repr_list l) = true.
Proof.
  unfold repr_list. rewrite !no_newline_app.
  assert (H : no_newline (String.concat ", " (map repr_int l)) = true).
  { induction l as [|v l IH]; [reflexivity |].
    destruct l as [|w l]; [apply no_newline_repr_int |].
    change (no_newline
              (repr_int v ++ ", " ++
               String.concat ", " (map repr_int (w :: l))) = true).
    now rewrite !no_newline_app, no_newline_repr_int, IH. }
  now rewrite H.
Qed.

(** A record has a line feed in it only if the input's name has one. *)
Lemma no_newline_record vi : no_newline (record_of vi) = no_newline (name vi).
Proof.
  unfold record_of, f_string.
  rewrite !no_newline_app, no_newline_repr_list.
  simpl. now rewrite andb_true_r.
Qed.

(** ** Records and the pattern *)

Lemma matches_lit s : matches (Lit s) s.
Proof.
  induction s as [|c s IH]; simpl; [constructor |].
  change (String c s) with (String c "" ++ s).
  constructor; [| assumption].
  constructor. apply Ascii.eqb_refl.
Qed.

Lemma matches_star_class p s :
  all_chars p s = true -> matches (Star (Class p)) s.
Proof.
  induction s as [|c s IH]; simpl; intros H; [constructor |].
  apply andb_true_iff in H as [Hc Hs].
  change (String c s) with (String c "" ++ s).
  constructor; [now constructor | auto].
Qed.

Lemma matches_in_line s : no_newline s = true -> matches (Star in_line) s.
Proof. apply matches_star_class. Qed.

Lemma matches_int v : matches int_re (repr_int v).
Proof.
  destruct (repr_int_shape v) as (c & ds & Hc & Hds & [E | E]); rewrite E.
  - change (String c ds) with ("" ++ (String c "" ++ ds)).
    constructor; [apply m_alt_l; constructor |].
    constructor; [now constructor | now apply matches_star_class].
  - change (String "-" (String c ds))
      with (String "-" "" ++ (String c "" ++ ds)).
    constructor; [apply m_alt_r; constructor; reflexivity |].
    constructor; [now constructor | now apply matches_star_class].
Qed.

Lemma matches_ints v l :
  matches ints_re (String.concat ", " (map repr_int (v :: l))).
Proof.
  revert v. induction l as [|w l IH]; intros v.
  - simpl. rewrite <- (append_nil_r (repr_int v)).
    constructor; [apply matches_int | constructor].
  - change (matches ints_re
              (repr_int v ++ ", " ++
               String.concat ", " (map repr_int (w :: l)))).
    specialize (IH w).
    remember (String.concat ", " (map repr_int (w :: l))) as body eqn:E.
    clear E. inversion IH as [| |r1 r2 s1 s2 H1 H2| | | |]; subst.
    constructor; [apply matches_int |].
    change (", " ++ s1 ++ s2) with ((", " ++ s1) ++ s2).
    constructor; [| assumption].
    constructor; [apply (matches_lit ", ") | assumption].
Qed.

(** The pattern on a few texts: the example of the output format, a
    negative dimension, a missing blank after a comma, empty brackets. *)
Example flag_pattern_examples :
  matchb flag_pattern "-d input [1, 3, 224, 224]" = true /\
  matchb flag_pattern "-d x [-1]" = true /\
  matchb flag_pattern "-d x [1,2]" = false /\
  matchb flag_pattern "-d x []" = false /\
  matchb empty_shape_pattern "-d x []" = true /\
  matchb empty_shape_pattern "-d x [1]" = false.
Proof. repeat split; vm_compute; reflexivity. Qed.

(** The record of an input with at least one dimension fits the pattern,
    when the name has no line feed in it. *)
Lemma matches_f_string input_name v l :
  no_newline input_name = true ->
  matches flag_pattern (f_string input_name (v :: l)).
Proof.
  intros Hname. unfold f_string, repr_list, flag_pattern.
  constructor; [apply (matches_lit "-d ") |].
  constructor; [now apply matches_in_line |].
  change (" " ++ "[" ++ String.concat ", " (map repr_int (v :: l)) ++ "]")
    with (" [" ++ String.concat ", " (map repr_int (v :: l)) ++ "]").
  constructor; [apply (matches_lit " [") |].
  constructor; [apply matches_ints |].
  constructor. reflexivity.
Qed.

(** And so does the record of an input without dimensions fit the pattern
    with empty brackets. *)
Lemma matches_f_string_empty input_name :
  no_newline input_name = true ->
  matches empty_shape_pattern (f_string input_name []).
Proof.
  intros Hname.
  change (f_string input_name []) with ("-d " ++ input_name ++ " []").
  unfold empty_shape_pattern.
  constructor; [apply (matches_lit "-d ") |].
  constructor; [now apply matches_in_line | apply (matches_lit " []")].
Qed.

(** Texts read through a regular expression only if they match it. *)
Lemma not_matches r s : matchb r s = false -> ~ matches r s.
Proof.
  intros Hb Hm. apply matchb_spec in Hm. rewrite Hm in Hb. discriminate.
Qed.

(** ** What a run leaves behind *)

(** Every run is one of three: argparse ends it, the load fails, or the
    model loads and the loop runs to its end. *)
Lemma run_cases argv d n :
  (exists code out err,
      argparse argv = Exits code out err /\
      run argv d n =
      (code, {| disk := d; network := n; stdout := out; stderr := err;
                model_obj := None |})) \/
  (exists args e,
      argparse argv = Parsed args /\
      load_model d (onnxfile args) = inl e /\
      run argv d n =
      (1%Z, {| disk := d; network := n; stdout := "";
               stderr := traceback e; model_obj := None |})) \/
  (exists m,
      loads argv d m /\
      run argv d n =
      (0%Z, {| disk := d; network := n;
               stdout := unlines (map record_of (input (graph m)));
               stderr := ""; model_obj := Some m |})).
Proof.
  destruct (argparse argv) as [args | code out err] eqn:Hargs.
  - destruct (load_model d (onnxfile args)) as [e | m] eqn:Hload.
    + right. left. exists args, e.
      split; [reflexivity |]. split; [assumption |].
      now apply (run_load_raises argv d n args e).
    + right. right. exists m.
      assert (Hm : loads argv d m) by (exists args; auto).
      split; [assumption | now apply run_ok].
  - left. exists code, out, err. split; [reflexivity | now apply run_exits].
Qed.

(** No run changes the disk or sends anything. *)
Lemma run_frame argv d n :
  disk (snd (run argv d n)) = d /\ network (snd (run argv d n)) = n.
Proof.
  destruct (run_cases argv d n)
    as [(code & out & err & _ & E) | [(args & e & _ & _ & E) | (m & _ & E)]];
    rewrite E; split; reflexivity.
Qed.

Lemma forallb_no_newline_records (l : list ValueInfoProto) :
  forallb no_newline (map record_of l) =
  forallb (fun vi => no_newline (name vi)) l.
Proof.
  induction l as [|vi l IH]; simpl; [reflexivity |].
  now rewrite no_newline_record, IH.
Qed.

(** The records depend on an input's name and dimension values only. *)
Lemma records_of_view (m : ModelProto) :
  map record_of (input (graph m)) =
  map (fun v => f_string (fst v) (snd v)) (input_view m).
Proof.
  unfold input_view. rewrite map_map. reflexivity.
Qed.

(** Reading files gives the same on two disks that agree on them. *)
Lemma read_files_agree d1 d2 paths :
  (forall p, In p paths -> d1 p = d2 p) ->
  read_files d1 paths = read_files d2 paths.
Proof.
  induction paths as [|p paths IH]; intros H; [reflexivity |].
  cbn [read_files]. rewrite <- (H p (or_introl eq_refl)).
  rewrite IH by (intros q Hq; apply H; now right). reflexivity.
Qed.

(** A command line that is one path not starting with a dash names that
    path. *)
Lemma argparse_one_path path :
  optional_like path = false ->
  argparse [path] = Parsed {| onnxfile := path |}.
Proof. intros H. unfold argparse. simpl. now rewrite H. Qed.

Lemma loads_one_path path d m :
  optional_like path = false ->
  load_model d path = inr m ->
  loads [path] d m.
Proof.
  intros Hp Hl. exists {| onnxfile := path |}.
  split; [now apply argparse_one_path | assumption].
Qed.

Lemma load_fails_one_path path d :
  optional_like path = false ->
  d path = Absent \/ d path = Unreadable \/
  (exists bytes, d path = Content bytes /\ deserialize path bytes = None) ->
  load_fails [path] d.
Proof.
  intros Hp Hf. exists {| onnxfile := path |}.
  split; [now apply argparse_one_path | assumption].
Qed.

(** ** The claims *)

(** C1, amended.  For every valid model file with N declared graph inputs,
    none of whose names holds a line feed, the program emits exactly N
    lines on standard output: the i-th line is the record of the i-th
    input of the model's input list. *)
Theorem one_line_per_input argv d n m :
  loads argv d m ->
  forallb (fun vi => no_newline (name vi)) (input (graph m)) = true ->
  lines (stdout (snd (run argv d n))) = map record_of (input (graph m)) /\
  List.length (lines (stdout (snd (run argv d n)))) =
  List.length (input (graph m)).
Proof.
  intros Hm Hnames. rewrite (run_ok argv d n m Hm). cbn [snd stdout].
  rewrite lines_unlines by now rewrite forallb_no_newline_records.
  split; [reflexivity | apply length_map].
Qed.

(** C2.  For a model whose first declared input is named [input] and has
    tensor-type shape dimensions 1, 3, 224, 224, the first line emitted is
    exactly [-d input [1, 3, 224, 224]]. *)
Theorem first_line_of_image_input argv d n m vi rest :
  loads argv d m ->
  input (graph m) = vi :: rest ->
  name vi = "input" ->
  map dim_value (dim (shape (tensor_type (type vi)))) = [1; 3; 224; 224]%Z ->
  hd_error (lines (stdout (snd (run argv d n)))) =
  Some "-d input [1, 3, 224, 224]".
Proof.
  intros Hm Hin Hname Hdims. rewrite (run_ok argv d n m Hm).
  cbn [snd stdout]. rewrite Hin. cbn [map unlines].
  rewrite lines_record by now rewrite no_newline_record, Hname.
  cbn [hd_error]. f_equal. unfold record_of, f_string, shape_of.
  rewrite Hname.
  change (map (fun dim0 => int (dim_value dim0))
            (dim (shape (tensor_type (type vi)))))
    with (map dim_value (dim (shape (tensor_type (type vi))))).
  now rewrite Hdims.
Qed.

(** C3, amended.  For every valid model file none of whose input names
    holds a line feed, the lines of standard output stand one to one, in
    order, for the declared inputs: the line of an input whose shape has at
    least one dimension matches the pattern [-d <name> [<int>(, <int>)*]],
    and the line of an input whose shape has no dimension matches
    [-d <name> []]. *)
Theorem record_pattern argv d n m :
  loads argv d m ->
  forallb (fun vi => no_newline (name vi)) (input (graph m)) = true ->
  Forall2
    (fun vi line =>
       match dim (shape (tensor_type (type vi))) with
       | [] => matches empty_shape_pattern line
       | _ :: _ => matches flag_pattern line
       end)
    (input (graph m)) (lines (stdout (snd (run argv d n)))).
Proof.
  intros Hm Hnames. rewrite (run_ok argv d n m Hm). cbn [snd stdout].
  rewrite lines_unlines by now rewrite forallb_no_newline_records.
  revert Hnames. generalize (input (graph m)). intros l.
  induction l as [|vi l IH]; cbn [map forallb]; intros Hnames;
    constructor.
  - apply andb_true_iff in Hnames as [Hvi _].
    unfold record_of, shape_of.
    destruct (dim (shape (tensor_type (type vi)))) as [|dm dms];
      [now apply matches_f_string_empty | now apply matches_f_string].
  - apply IH. now apply andb_true_iff in Hnames as [_ Hl].
Qed.

(** C4.  For every valid model file that declares zero graph inputs, the
    program emits zero lines and exits with status 0. *)
Theorem no_inputs_no_output argv d n m :
  loads argv d m ->
  input (graph m) = [] ->
  fst (run argv d n) = 0%Z /\
  stdout (snd (run argv d n)) = "" /\
  lines (stdout (snd (run argv d n))) = [].
Proof.
  intros Hm Hin. rewrite (run_ok argv d n m Hm), Hin. now repeat split.
Qed.

(** C5.  For every path argument naming a file that does not exist, is
    unreadable, or does not decode as a model, the program ends with exit
    status 1, having written nothing to standard output (so no [-d]
    line); the exception of the load, uncaught, is what the interpreter
    reports on standard error. *)
Theorem load_failure_is_fatal argv d n :
  load_fails argv d ->
  fst (run argv d n) = 1%Z /\
  stdout (snd (run argv d n)) = "" /\
  d_lines (stdout (snd (run argv d n))) = [] /\
  exists e, stderr (snd (run argv d n)) = traceback e.
Proof.
  intros Hfail. destruct (run_load_error argv d n Hfail) as [e He].
  rewrite He. repeat split. now exists e.
Qed.

(** C6.  Invoked with no command-line arguments, the program ends with
    exit status 2, prints the usage message and the complaint about the
    missing [onnxfile] on standard error, and writes nothing to standard
    output (so no [-d] line). *)
Theorem no_arguments_is_usage_error d n :
  fst (run [] d n) = 2%Z /\
  stderr (snd (run [] d n)) =
    "usage: " ++ prog ++ " [-h] onnxfile" ++ newline ++
    prog ++ ": error: the following arguments are required: onnxfile" ++
    newline /\
  prefix "usage: " (stderr (snd (run [] d n))) = true /\
  stdout (snd (run [] d n)) = "" /\
  d_lines (stdout (snd (run [] d n))) = [].
Proof.
  rewrite (run_exits [] d n 2 ""
             (error "the following arguments are required: onnxfile")
             eq_refl).
  cbn [fst snd stdout stderr]. unfold error, usage.
  rewrite !append_assoc. repeat split.
  simpl. now destruct prog.
Qed.

(** C7, amended.  Two runs of the program on the same command line write
    the same bytes to standard output, and exit with the same status,
    whenever the file the command line names and the files holding the
    data of its external tensors are the same for both: standard output is
    a function of the path and of the contents of those files, and nothing
    else -- the rest of the disk, the network log, an earlier run -- bears
    on it. *)
Theorem same_file_same_output argv args d1 d2 n1 n2 :
  argparse argv = Parsed args ->
  d1 (onnxfile args) = d2 (onnxfile args) ->
  (forall bytes model p,
     d1 (onnxfile args) = Content bytes ->
     deserialize (onnxfile args) bytes = Some model ->
     In p (external_data_files (onnxfile args) model) ->
     d1 p = d2 p) ->
  stdout (snd (run argv d1 n1)) = stdout (snd (run argv d2 n2)) /\
  fst (run argv d1 n1) = fst (run argv d2 n2).
Proof.
  intros Hargs Hfile Hdata.
  assert (Hload : load_model d1 (onnxfile args) = load_model d2 (onnxfile args)).
  { unfold load_model. rewrite <- Hfile.
    destruct (d1 (onnxfile args)) as [| | bytes] eqn:Hf; try reflexivity.
    destruct (deserialize (onnxfile args) bytes) as [model |] eqn:Hdec;
      [| reflexivity].
    now rewrite (read_files_agree d1 d2 _
                   (fun p => Hdata bytes model p eq_refl Hdec)). }
  destruct (load_model d1 (onnxfile args)) as [e | m] eqn:H1.
  - rewrite (run_load_raises argv d1 n1 args e Hargs H1).
    now rewrite (run_load_raises argv d2 n2 args e Hargs (eq_sym Hload)).
  - assert (Hm1 : loads argv d1 m) by (exists args; auto).
    assert (Hm2 : loads argv d2 m) by (exists args; auto).
    now rewrite (run_ok _ _ n1 _ Hm1), (run_ok _ _ n2 _ Hm2).
Qed.

(** C8, amended.  For every run, the program changes nothing on disk and
    sends nothing over the network; what it writes goes to the standard
    streams, and a run on a valid model file writes to standard output
    only (standard error carries the diagnostic of a run that fails).
    The model object, once loaded, is never mutated: at the end of a run
    it is exactly the model the file decodes to. *)
Theorem writes_streams_only argv d n :
  disk (snd (run argv d n)) = d /\
  network (snd (run argv d n)) = n /\
  (forall m, model_obj (snd (run argv d n)) = Some m -> loads argv d m) /\
  (forall m, loads argv d m ->
     model_obj (snd (run argv d n)) = Some m /\
     stderr (snd (run argv d n)) = "").
Proof.
  split; [apply run_frame |]. split; [apply run_frame |]. split.
  - intros m. destruct (run_cases argv d n)
      as [(code & out & err & _ & E)
         | [(args & e & _ & _ & E) | (m' & Hm' & E)]];
      rewrite E; cbn [snd model_obj]; intros H;
      [discriminate | discriminate |].
    injection H as <-. assumption.
  - intros m Hm. now rewrite (run_ok argv d n m Hm).
Qed.

(** C9.  For every valid model file with a graph input one of whose
    dimension descriptors has no [dim_value] set (a symbolic one, or one
    left unset), the program does not fail: it exits with status 0 and
    the record of that input shows 0 at that dimension. *)
Theorem unset_dimension_prints_zero argv d n m vi pre dm post :
  loads argv d m ->
  In vi (input (graph m)) ->
  dim (shape (tensor_type (type vi))) = (pre ++ dm :: post)%list ->
  (forall v, value dm <> dim_value_set v) ->
  fst (run argv d n) = 0%Z /\
  stdout (snd (run argv d n)) = unlines (map record_of (input (graph m))) /\
  record_of vi =
    "-d " ++ name vi ++ " [" ++
    String.concat ", "
      (map repr_int (map dim_value pre) ++
       "0" :: map repr_int (map dim_value post))%list ++ "]".
Proof.
  intros Hm _ Hdims Hunset. rewrite (run_ok argv d n m Hm).
  split; [reflexivity |]. split; [reflexivity |].
  unfold record_of, f_string, repr_list, shape_of, int. rewrite Hdims.
  rewrite !map_app, !map_map. cbn [map].
  assert (Hzero : dim_value dm = 0%Z).
  { unfold dim_value. destruct (value dm) as [v | p |];
      [now destruct (Hunset v) | reflexivity | reflexivity]. }
  rewrite Hzero. reflexivity.
Qed.

(** C10.  For every two valid model files whose graph input lists agree on
    each input's name and on each dimension's integer value, the program
    writes the same standard output on both, whatever else the models
    hold. *)
Theorem output_depends_on_inputs_only argv1 argv2 d1 d2 n1 n2 m1 m2 :
  loads argv1 d1 m1 ->
  loads argv2 d2 m2 ->
  input_view m1 = input_view m2 ->
  stdout (snd (run argv1 d1 n1)) = stdout (snd (run argv2 d2 n2)).
Proof.
  intros H1 H2 Hview.
  rewrite (run_ok _ _ n1 _ H1), (run_ok _ _ n2 _ H2). cbn [snd stdout].
  now rewrite !records_of_view, Hview.
Qed.

(** ** Reading the records back *)

Lemma lacks_app c (s t : string) : lacks c (s ++ t) = lacks c s && lacks c t.
Proof. apply all_chars_app. Qed.

Lemma lacks_head c x s : lacks c (String x s) = true -> x <> c /\ lacks c s = true.
Proof.
  unfold lacks. simpl. intros H. apply andb_true_iff in H as [Hx Hs].
  split; [| assumption]. intros ->. now rewrite Ascii.eqb_refl in Hx.
Qed.

Lemma lacks_not_split c a s : lacks c (a ++ String c s) = false.
Proof.
  rewrite lacks_app. unfold lacks at 2. simpl. rewrite Ascii.eqb_refl.
  apply andb_false_r.
Qed.

(** Two texts cut at their first [c] agree piece by piece. *)
Lemma split_at_first c a b s t :
  lacks c a = true -> lacks c b = true ->
  a ++ String c s = b ++ String c t -> a = b /\ s = t.
Proof.
  revert b. induction a as [|x a IH]; intros [|y b] Ha Hb E; simpl in E.
  - injection E as ->. auto.
  - injection E as <- _. now destruct (lacks_head _ _ _ Hb).
  - injection E as -> _. now destruct (lacks_head _ _ _ Ha).
  - injection E as -> E.
    apply lacks_head in Ha as [_ Ha]. apply lacks_head in Hb as [_ Hb].
    destruct (IH b Ha Hb E) as [-> ->]. auto.
Qed.

(** Two texts cut at their last [c] agree piece by piece. *)
Lemma split_at_last c a b s t :
  lacks c s = true -> lacks c t = true ->
  a ++ String c s = b ++ String c t -> a = b /\ s = t.
Proof.
  intros Hs Ht. revert b. induction a as [|x a IH]; intros [|y b] E; simpl in E.
  - injection E as ->. auto.
  - injection E as _ E. rewrite E, lacks_not_split in Hs. discriminate.
  - injection E as _ E. rewrite <- E, lacks_not_split in Ht. discriminate.
  - injection E as -> E. destruct (IH b E) as [-> ->]. auto.
Qed.

Lemma repr_int_lacks c v :
  is_digit c = false -> c <> "-"%char -> lacks c (repr_int v) = true.
Proof.
  intros Hd Hm.
  assert (Hne : forall x, is_digit x = true -> negb (Ascii.eqb x c) = true).
  { intros x Hx. destruct (Ascii.eqb_spec x c) as [-> | _];
      [congruence | reflexivity]. }
  assert (Hminus : negb (Ascii.eqb "-" c) = true).
  { destruct (Ascii.eqb_spec "-" c) as [<- | _];
      [now contradiction Hm | reflexivity]. }
  destruct (repr_int_shape v) as (x & ds & Hx & Hds & [E | E]);
    rewrite E; unfold lacks; cbn [all_chars];
    rewrite ?Hminus, (Hne _ Hx);
    now rewrite (all_chars_weaken _ _ _ Hne Hds).
Qed.

Lemma repr_int_not_empty v : repr_int v <> "".
Proof.
  destruct (repr_int_shape v) as (x & ds & _ & _ & [E | E]);
    rewrite E; discriminate.
Qed.

(** The text of an int is the text of no other int. *)
Lemma repr_int_inj v w : repr_int v = repr_int w -> v = w.
Proof.
  assert (Hnorm : forall z, Z.to_int z <> Decimal.Pos Decimal.Nil /\
                            Z.to_int z <> Decimal.Neg Decimal.Nil).
  { intros [|p|p]; simpl; split; try discriminate;
      intros [= H]; now apply (Unsigned.to_uint_nonnil p). }
  intros E. apply DecimalZ.to_int_inj.
  destruct (Hnorm v) as [Hv1 Hv2]. destruct (Hnorm w) as [Hw1 Hw2].
  pose proof (NilZero.isi _ Hv1 Hv2) as Iv.
  pose proof (NilZero.isi _ Hw1 Hw2) as Iw.
  unfold repr_int in E. rewrite E in Iv. rewrite Iv in Iw. now injection Iw.
Qed.

Lemma joined_ints_lacks c l :
  is_digit c = false -> c <> "-"%char -> c <> ","%char -> c <> " "%char ->
  lacks c (String.concat ", " (map repr_int l)) = true.
Proof.
  intros Hd Hm Hc Hs.
  induction l as [|v l IH]; [reflexivity |].
  destruct l as [|w l]; [now apply repr_int_lacks |].
  change (lacks c (repr_int v ++ ", " ++
                   String.concat ", " (map repr_int (w :: l))) = true).
  rewrite !lacks_app, repr_int_lacks, IH by assumption.
  unfold lacks. cbn [all_chars].
  destruct (Ascii.eqb_spec "," c) as [<- | _]; [now contradiction Hc |].
  destruct (Ascii.eqb_spec " " c) as [<- | _]; [now contradiction Hs |].
  reflexivity.
Qed.

Lemma joined_ints_inj l1 l2 :
  String.concat ", " (map repr_int l1) = String.concat ", " (map repr_int l2) ->
  l1 = l2.
Proof.
  assert (Hcomma : forall v, lacks "," (repr_int v) = true)
    by (intros v; now apply repr_int_lacks).
  assert (Hsplit : forall v s, repr_int v ++ ", " ++ s = repr_int v ++ String "," (String " " s))
    by reflexivity.
  revert l2. induction l1 as [|v l1 IH]; intros l2 E.
  - destruct l2 as [|w [|w' l2]]; [reflexivity | |].
    + simpl in E. now destruct (repr_int_not_empty w).
    + change (String.concat ", " (map repr_int []) =
              repr_int w ++ ", " ++
              String.concat ", " (map repr_int (w' :: l2))) in E.
      simpl in E. destruct (repr_int w); discriminate.
  - destruct l1 as [|v' l1].
    + destruct l2 as [|w [|w' l2]].
      * simpl in E. now destruct (repr_int_not_empty v).
      * simpl in E. now rewrite (repr_int_inj _ _ E).
      * change (repr_int v = repr_int w ++ String ","
                  (String " " (String.concat ", " (map repr_int (w' :: l2)))))
          in E.
        pose proof (Hcomma v) as H. rewrite E, lacks_not_split in H.
        discriminate.
    + destruct l2 as [|w [|w' l2]].
      * change (repr_int v ++ ", " ++
                String.concat ", " (map repr_int (v' :: l1)) = "") in E.
        destruct (repr_int v); discriminate.
      * change (repr_int v ++ String ","
                  (String " " (String.concat ", " (map repr_int (v' :: l1))))
                = repr_int w) in E.
        pose proof (Hcomma w) as H. rewrite <- E, lacks_not_split in H.
        discriminate.
      * change (repr_int v ++ String ","
                  (String " " (String.concat ", " (map repr_int (v' :: l1))))
                = repr_int w ++ String ","
                  (String " " (String.concat ", " (map repr_int (w' :: l2)))))
          in E.
        destruct (split_at_first _ _ _ _ _ (Hcomma v) (Hcomma w) E) as [Ev Er].
        injection Er as Er.
        rewrite (repr_int_inj _ _ Ev), (IH (w' :: l2) Er). reflexivity.
Qed.

(** A record is the record of one name and one shape only: the shape is
    what follows the last opening bracket, the name what stands between
    the flag and the blank before that bracket. *)
Lemma f_string_inj n1 n2 s1 s2 :
  f_string n1 s1 = f_string n2 s2 -> n1 = n2 /\ s1 = s2.
Proof.
  unfold f_string, repr_list. intros E. injection E as E.
  assert (Hb : forall l, lacks "[" (String.concat ", " (map repr_int l) ++ "]")
                         = true).
  { intros l. rewrite lacks_app, joined_ints_lacks by (reflexivity || discriminate).
    reflexivity. }
  assert (Hassoc : forall n x,
             n ++ String " " (String "[" x) = (n ++ " ") ++ String "[" x).
  { intros n x. now rewrite append_assoc. }
  rewrite !Hassoc in E.
  destruct (split_at_last _ _ _ _ _ (Hb s1) (Hb s2) E) as [En Es].
  destruct (split_at_last " " n1 n2 "" "" eq_refl eq_refl En) as [-> _].
  split; [reflexivity |]. apply joined_ints_inj.
  assert (Hr : forall l, lacks "]" (String.concat ", " (map repr_int l)) = true)
    by (intros l; apply joined_ints_lacks; reflexivity || discriminate).
  now destruct (split_at_last "]" _ _ "" "" eq_refl eq_refl Es)
    as [-> _].
Qed.

Lemma records_inj (l1 l2 : list ValueInfoProto) :
  map record_of l1 = map record_of l2 ->
  map (fun vi => (name vi, map dim_value (dim (shape (tensor_type (type vi))))))
      l1 =
  map (fun vi => (name vi, map dim_value (dim (shape (tensor_type (type vi))))))
      l2.
Proof.
  revert l2. induction l1 as [|v1 l1 IH]; intros [|v2 l2] E;
    try discriminate; [reflexivity |].
  cbn [map] in *.
  pose proof (f_equal (hd "") E) as Ev. pose proof (f_equal (@tl _) E) as El.
  cbn [hd tl] in Ev, El.
  destruct (f_string_inj _ _ _ _ Ev) as [En Es].
  unfold shape_of, int in Es.
  change (map (fun dim0 => dim_value dim0)
            (dim (shape (tensor_type (type v1)))))
    with (map dim_value (dim (shape (tensor_type (type v1))))) in Es.
  change (map (fun dim0 => dim_value dim0)
            (dim (shape (tensor_type (type v2)))))
    with (map dim_value (dim (shape (tensor_type (type v2))))) in Es.
  now rewrite En, Es, (IH l2 El).
Qed.

(** ** Counting lines *)

Lemma lines_terminated_cons s : exists l ls, lines (s ++ newline) = l :: ls.
Proof.
  induction s as [|c s (l & ls & IH)]; cbn [append lines].
  - now exists "", [].
  - unfold newline in *. destruct (Ascii.eqb c LF).
    + now exists "", (lines (s ++ String LF "")).
    + rewrite IH. now exists (String c l), ls.
Qed.

Lemma lines_app_terminated s t :
  lines ((s ++ newline) ++ t) = (lines (s ++ newline) ++ lines t)%list.
Proof.
  induction s as [|c s IH]; cbn [append lines].
  - reflexivity.
  - destruct (Ascii.eqb c LF).
    + now rewrite IH.
    + rewrite IH. destruct (lines_terminated_cons s) as (l & ls & E).
      now rewrite E.
Qed.

Lemma length_lines_terminated s :
  List.length (lines (s ++ newline)) = S (count_newlines s).
Proof.
  induction s as [|c s IH]; cbn [append lines count_newlines].
  - reflexivity.
  - destruct (Ascii.eqb c LF).
    + cbn [List.length]. now rewrite IH.
    + destruct (lines_terminated_cons s) as (l & ls & E).
      rewrite E in *. exact IH.
Qed.

Lemma count_newlines_app s t :
  count_newlines (s ++ t) = (count_newlines s + count_newlines t)%nat.
Proof.
  induction s as [|c s IH]; cbn [append count_newlines];
    [reflexivity | rewrite IH; lia].
Qed.

Lemma count_newlines_none s : no_newline s = true -> count_newlines s = 0%nat.
Proof.
  induction s as [|c s IH]; cbn [count_newlines]; [reflexivity |].
  unfold no_newline. cbn [all_chars]. intros H.
  apply andb_true_iff in H as [Hc Hs]. apply negb_true_iff in Hc.
  rewrite Hc. now apply IH.
Qed.

Lemma count_newlines_record vi :
  count_newlines (record_of vi) = count_newlines (name vi).
Proof.
  unfold record_of, f_string. rewrite !count_newlines_app.
  rewrite (count_newlines_none _ (no_newline_repr_list _)).
  cbn [count_newlines]. simpl. lia.
Qed.

Lemma length_lines_unlines rs :
  List.length (lines (unlines rs)) =
  (List.length rs + list_sum (map count_newlines rs))%nat.
Proof.
  induction rs as [|r rs IH]; [reflexivity |].
  cbn [unlines map list_sum List.length].
  rewrite <- append_assoc, lines_app_terminated, length_app.
  rewrite length_lines_terminated, IH.
  change (list_sum (count_newlines r :: map count_newlines rs))
    with (count_newlines r + list_sum (map count_newlines rs))%nat.
  lia.
Qed.

(** ** Further properties of the script *)

(** X1.  For inputs whose names are well-formed UTF-8, the record of an
    input gives away its name and its dimension values, and nothing is
    lost: two such inputs with the same record have the same name and the
    same list of dimension values. *)
Theorem record_determines_name_and_shape vi1 vi2 :
  utf8 (name vi1) = true ->
  utf8 (name vi2) = true ->
  record_of vi1 = record_of vi2 ->
  name vi1 = name vi2 /\
  map dim_value (dim (shape (tensor_type (type vi1)))) =
  map dim_value (dim (shape (tensor_type (type vi2)))).
Proof.
  intros _ _ E. unfold record_of in E.
  destruct (f_string_inj _ _ _ _ E) as [En Es].
  split; [exact En | exact Es].
Qed.

(** X2.  For two valid model files whose input names are well-formed UTF-8
    and hold no line feed, equal standard output means equal input lists,
    name by name and dimension value by dimension value. *)
Theorem output_determines_inputs argv1 argv2 d1 d2 n1 n2 m1 m2 :
  loads argv1 d1 m1 ->
  loads argv2 d2 m2 ->
  forallb (fun vi => utf8 (name vi) && no_newline (name vi))
    (input (graph m1)) = true ->
  forallb (fun vi => utf8 (name vi) && no_newline (name vi))
    (input (graph m2)) = true ->
  stdout (snd (run argv1 d1 n1)) = stdout (snd (run argv2 d2 n2)) ->
  input_view m1 = input_view m2.
Proof.
  intros H1 H2 Hn1 Hn2.
  assert (Hline : forall l,
             forallb (fun vi => utf8 (name vi) && no_newline (name vi)) l
               = true ->
             forallb no_newline (map record_of l) = true).
  { intros l Hl. rewrite forallb_no_newline_records.
    rewrite forallb_forall in *. intros vi Hvi.
    now destruct (andb_prop _ _ (Hl vi Hvi)). }
  rewrite (run_ok _ _ n1 _ H1), (run_ok _ _ n2 _ H2). cbn [snd stdout].
  intros E. apply (f_equal lines) in E.
  rewrite !lines_unlines in E by now apply Hline.
  now apply records_inj.
Qed.

(** X4.  An input whose type is not a tensor type (a sequence, a map, an
    optional, a sparse tensor, or no type at all), or whose tensor type
    carries no shape, is printed with the empty list for its shape, like a
    scalar. *)
Theorem shapeless_input_prints_empty_list argv d n m vi :
  loads argv d m ->
  In vi (input (graph m)) ->
  (forall t, type vi <> tensor_type_set t) \/
  (exists t, type vi = tensor_type_set t /\ shape_opt t = None) ->
  stdout (snd (run argv d n)) = unlines (map record_of (input (graph m))) /\
  record_of vi = "-d " ++ name vi ++ " []".
Proof.
  intros Hm _ Hty. rewrite (run_ok argv d n m Hm). split; [reflexivity |].
  unfold record_of, shape_of.
  assert (Hdims : dim (shape (tensor_type (type vi))) = []).
  { destruct Hty as [Hno | (t & Ht & Hs)].
    - destruct (type vi) as [t | | | | |]; try reflexivity.
      now destruct (Hno t).
    - rewrite Ht. unfold shape. cbn [tensor_type]. now rewrite Hs. }
  now rewrite Hdims.
Qed.

(** X5.  For every valid model file whose input names are well-formed
    UTF-8, the number of lines on standard output is the number of declared
    inputs plus the number of line feeds in their names. *)
Theorem line_count argv d n m :
  loads argv d m ->
  forallb (fun vi => utf8 (name vi)) (input (graph m)) = true ->
  List.length (lines (stdout (snd (run argv d n)))) =
  (List.length (input (graph m)) +
   list_sum (map (fun vi => count_newlines (name vi)) (input (graph m))))%nat.
Proof.
  intros Hm _. rewrite (run_ok argv d n m Hm). cbn [snd stdout].
  rewrite length_lines_unlines, length_map, map_map.
  f_equal. f_equal. apply map_ext. intros vi. apply count_newlines_record.
Qed.

End Script.

(** ** The theorems on the sample machine *)

Abbreviation sample_run :=
  (run sample_prog sample_decoder sample_traceback sample_optionals
     sample_serializer sample_external sample_attach).
Abbreviation sample_loads :=
  (loads sample_prog sample_decoder sample_optionals
     sample_serializer sample_external sample_attach).
Abbreviation sample_load_fails :=
  (load_fails sample_prog sample_decoder sample_optionals sample_serializer).

(** The second machine: serializers by extension and weights outside. *)
Abbreviation second_run :=
  (run sample_prog second_decoder sample_traceback sample_optionals
     by_extension weights_outside read_weights).

(** C1 as first stated fails on a name with a line feed in it: the model
    in [split.onnx] declares one input, and the run prints two lines. *)
Lemma newline_in_name_splits_record :
  sample_loads ["split.onnx"] sample_disk split_model /\
  List.length (input (graph split_model)) = 1%nat /\
  lines (stdout (snd (sample_run ["split.onnx"] sample_disk []))) =
    ["-d a"; "b [1]"] /\
  List.length (lines (stdout (snd (sample_run ["split.onnx"] sample_disk []))))
    = 2%nat.
Proof.
  split; [apply loads_one_path; reflexivity |].
  split; [reflexivity |]. split; vm_compute; reflexivity.
Qed.

(** C1 on [model.onnx]: two inputs, two lines. *)
Lemma one_line_per_input_witness :
  sample_loads ["model.onnx"] sample_disk image_model /\
  forallb (fun vi => no_newline (name vi)) (input (graph image_model)) = true /\
  (lines (stdout (snd (sample_run ["model.onnx"] sample_disk []))) =
     map record_of (input (graph image_model)) /\
   List.length (lines (stdout (snd (sample_run ["model.onnx"] sample_disk []))))
     = List.length (input (graph image_model))).
Proof.
  assert (H1 : sample_loads ["model.onnx"] sample_disk image_model)
    by (apply loads_one_path; reflexivity).
  assert (H2 : forallb (fun vi => no_newline (name vi))
                 (input (graph image_model)) = true) by reflexivity.
  exact (conj H1 (conj H2
           (one_line_per_input sample_prog sample_decoder sample_traceback
              sample_optionals sample_serializer sample_external sample_attach
              ["model.onnx"] sample_disk [] image_model
              H1 H2))).
Defined.

(** C2 on [model.onnx], whose first input is the image. *)
Lemma first_line_of_image_input_witness :
  sample_loads ["model.onnx"] sample_disk image_model /\
  input (graph image_model) =
    [image_input; tensor_input "mask" [fixed 1; fixed 224]] /\
  name image_input = "input" /\
  map dim_value (dim (shape (tensor_type (type image_input)))) =
    [1; 3; 224; 224]%Z /\
  hd_error (lines (stdout (snd (sample_run ["model.onnx"] sample_disk [])))) =
    Some "-d input [1, 3, 224, 224]".
Proof.
  assert (H1 : sample_loads ["model.onnx"] sample_disk image_model)
    by (apply loads_one_path; reflexivity).
  repeat (split; [first [exact H1 | reflexivity] |]).
  exact (first_line_of_image_input sample_prog sample_decoder sample_traceback
           sample_optionals sample_serializer sample_external sample_attach
           ["model.onnx"] sample_disk [] image_model
           image_input [tensor_input "mask" [fixed 1; fixed 224]]
           H1 eq_refl eq_refl eq_refl).
Defined.

(** C3 as first stated fails twice over.  On an input whose shape has no
    dimension: the model in [scalar.onnx] declares the scalar input [x],
    the one line printed is [-d x []], and it does not match the pattern,
    which asks for at least one integer between the brackets.  And on a
    name with a line feed in it: the model in [split.onnx] declares one
    input with one dimension, and neither of the two lines printed matches
    the pattern. *)
Lemma scalar_and_split_lines_miss_pattern :
  sample_loads ["scalar.onnx"] sample_disk scalar_model /\
  In (tensor_input "x" []) (input (graph scalar_model)) /\
  stdout (snd (sample_run ["scalar.onnx"] sample_disk [])) =
    "-d x []" ++ newline /\
  lines (stdout (snd (sample_run ["scalar.onnx"] sample_disk []))) =
    ["-d x []"] /\
  ~ matches flag_pattern "-d x []" /\
  sample_loads ["split.onnx"] sample_disk split_model /\
  lines (stdout (snd (sample_run ["split.onnx"] sample_disk []))) =
    ["-d a"; "b [1]"] /\
  ~ matches flag_pattern "-d a" /\
  ~ matches flag_pattern "b [1]".
Proof.
  split; [apply loads_one_path; reflexivity |].
  split; [now left |].
  split; [vm_compute; reflexivity |].
  split; [vm_compute; reflexivity |].
  split; [apply not_matches; vm_compute; reflexivity |].
  split; [apply loads_one_path; reflexivity |].
  split; [vm_compute; reflexivity |].
  split; apply not_matches; vm_compute; reflexivity.
Qed.

(** C3 on [model.onnx]. *)
Lemma record_pattern_witness :
  sample_loads ["model.onnx"] sample_disk image_model /\
  forallb (fun vi => no_newline (name vi)) (input (graph image_model)) = true /\
  Forall2
    (fun vi line =>
       match dim (shape (tensor_type (type vi))) with
       | [] => matches empty_shape_pattern line
       | _ :: _ => matches flag_pattern line
       end)
    (input (graph image_model))
    (lines (stdout (snd (sample_run ["model.onnx"] sample_disk [])))).
Proof.
  assert (H1 : sample_loads ["model.onnx"] sample_disk image_model)
    by (apply loads_one_path; reflexivity).
  exact (conj H1 (conj eq_refl
           (record_pattern sample_prog sample_decoder sample_traceback
              sample_optionals sample_serializer sample_external sample_attach
              ["model.onnx"] sample_disk [] image_model H1 eq_refl))).
Defined.

(** The amended C3 on [scalar.onnx]: the one line matches the pattern with
    empty brackets. *)
Lemma scalar_line_matches_empty_pattern :
  lines (stdout (snd (sample_run ["scalar.onnx"] sample_disk []))) =
    ["-d x []"] /\
  matches empty_shape_pattern "-d x []".
Proof.
  split; [vm_compute; reflexivity |].
  apply matchb_spec. vm_compute. reflexivity.
Qed.

(** C4 on [empty.onnx], a model without inputs. *)
Lemma no_inputs_no_output_witness :
  sample_loads ["empty.onnx"] sample_disk empty_model /\
  input (graph empty_model) = [] /\
  (fst (sample_run ["empty.onnx"] sample_disk []) = 0%Z /\
   stdout (snd (sample_run ["empty.onnx"] sample_disk [])) = "" /\
   lines (stdout (snd (sample_run ["empty.onnx"] sample_disk []))) = []).
Proof.
  assert (H1 : sample_loads ["empty.onnx"] sample_disk empty_model)
    by (apply loads_one_path; reflexivity).
  exact (conj H1 (conj eq_refl
           (no_inputs_no_output sample_prog sample_decoder sample_traceback
              sample_optionals sample_serializer sample_external sample_attach
              ["empty.onnx"] sample_disk [] empty_model
              H1 eq_refl))).
Defined.

(** C5 on a path that is not on the sample disk. *)
Lemma load_failure_is_fatal_witness :
  sample_load_fails ["missing.onnx"] sample_disk /\
  (fst (sample_run ["missing.onnx"] sample_disk []) = 1%Z /\
   stdout (snd (sample_run ["missing.onnx"] sample_disk [])) = "" /\
   d_lines (stdout (snd (sample_run ["missing.onnx"] sample_disk []))) = [] /\
   exists e,
     stderr (snd (sample_run ["missing.onnx"] sample_disk [])) =
     sample_traceback e).
Proof.
  assert (H1 : sample_load_fails ["missing.onnx"] sample_disk)
    by (apply load_fails_one_path; [reflexivity | now left]).
  exact (conj H1
           (load_failure_is_fatal sample_prog sample_decoder sample_traceback
              sample_optionals sample_serializer sample_external sample_attach
              ["missing.onnx"] sample_disk [] H1)).
Defined.

(** The other two ways a load fails, on the sample disk. *)
Lemma unreadable_and_malformed_fail :
  sample_load_fails ["locked.onnx"] sample_disk /\
  sample_load_fails ["notes.txt"] sample_disk /\
  fst (sample_run ["locked.onnx"] sample_disk []) = 1%Z /\
  fst (sample_run ["notes.txt"] sample_disk []) = 1%Z.
Proof.
  split; [apply load_fails_one_path; [reflexivity | right; now left] |].
  split; [apply load_fails_one_path;
          [reflexivity | right; right; now exists [x68; x69]] |].
  split; reflexivity.
Qed.

(** C7 as first stated fails, on the second machine.  The model in
    [big.onnx] keeps a weight in [weights.bin]: with that file on the disk
    the run prints the record of the input, without it the load raises and
    nothing is printed, the model file being the same on both disks.  And
    the bytes of [model.onnx] under the name [copy.textproto] go to the
    text serializer, which refuses them. *)
Lemma same_contents_different_output :
  second_disk "big.onnx" = bare_disk "big.onnx" /\
  stdout (snd (second_run ["big.onnx"] second_disk [])) =
    "-d input [1, 3, 224, 224]" ++ newline /\
  fst (second_run ["big.onnx"] second_disk []) = 0%Z /\
  stdout (snd (second_run ["big.onnx"] bare_disk [])) = "" /\
  fst (second_run ["big.onnx"] bare_disk []) = 1%Z /\
  second_disk "copy.textproto" = second_disk "model.onnx" /\
  stdout (snd (second_run ["model.onnx"] second_disk [])) =
    "-d input [1, 3, 224, 224]" ++ newline ++ "-d mask [1, 224]" ++ newline /\
  stdout (snd (second_run ["copy.textproto"] second_disk [])) = "" /\
  fst (second_run ["copy.textproto"] second_disk []) = 1%Z.
Proof.
  repeat split; vm_compute; reflexivity.
Qed.

(** C7 on [big.onnx] of the second machine: two disks that agree on the
    model file and on [weights.bin] and differ elsewhere, two network
    logs. *)
Lemma same_file_same_output_witness :
  argparse sample_prog sample_optionals ["big.onnx"] =
    Parsed {| onnxfile := "big.onnx" |} /\
  second_disk "big.onnx" = third_disk "big.onnx" /\
  (forall bytes model p,
     second_disk "big.onnx" = Content bytes ->
     deserialize second_decoder by_extension "big.onnx" bytes = Some model ->
     In p (weights_outside "big.onnx" model) ->
     second_disk p = third_disk p) /\
  (stdout (snd (second_run ["big.onnx"] second_disk [])) =
   stdout (snd (second_run ["big.onnx"] third_disk [[x00]])) /\
   fst (second_run ["big.onnx"] second_disk []) =
   fst (second_run ["big.onnx"] third_disk [[x00]])).
Proof.
  assert (H3 : forall bytes model p,
             second_disk "big.onnx" = Content bytes ->
             deserialize second_decoder by_extension "big.onnx" bytes
               = Some model ->
             In p (weights_outside "big.onnx" model) ->
             second_disk p = third_disk p).
  { intros bytes model p _ _ Hp. unfold weights_outside in Hp.
    apply in_map_iff in Hp as (t & <- & _). reflexivity. }
  exact (conj eq_refl (conj eq_refl (conj H3
           (same_file_same_output sample_prog second_decoder sample_traceback
              sample_optionals by_extension weights_outside read_weights
              ["big.onnx"] {| onnxfile := "big.onnx" |}
              second_disk third_disk [] [[x00]]
              eq_refl eq_refl H3)))).
Defined.

(** The weight read in by that load. *)
Lemma big_model_weights_read_in :
  option_map (fun m => map raw_data (initializer (graph m)))
    (model_obj (snd (second_run ["big.onnx"] second_disk []))) =
  Some [[x00; x01]].
Proof. vm_compute. reflexivity. Qed.

(** C8 as first stated fails on a run that ends in an error: with no
    argument the program writes nothing to standard output and the usage
    message to standard error. *)
Lemma usage_error_writes_to_stderr :
  fst (sample_run [] sample_disk []) = 2%Z /\
  stdout (snd (sample_run [] sample_disk [])) = "" /\
  stderr (snd (sample_run [] sample_disk [])) =
    "usage: get_onnx_info.py [-h] onnxfile" ++ newline ++
    "get_onnx_info.py: error: the following arguments are required: onnxfile"
    ++ newline /\
  stderr (snd (sample_run [] sample_disk [])) <> "".
Proof.
  split; [reflexivity |]. split; [reflexivity |].
  split; [reflexivity | discriminate].
Qed.

(** C8 on [model.onnx], with something already in the network log. *)
Lemma writes_streams_only_witness :
  sample_loads ["model.onnx"] sample_disk image_model /\
  disk (snd (sample_run ["model.onnx"] sample_disk [[x00]])) = sample_disk /\
  network (snd (sample_run ["model.onnx"] sample_disk [[x00]])) = [[x00]] /\
  model_obj (snd (sample_run ["model.onnx"] sample_disk [[x00]])) =
    Some image_model /\
  stderr (snd (sample_run ["model.onnx"] sample_disk [[x00]])) = "".
Proof.
  assert (H1 : sample_loads ["model.onnx"] sample_disk image_model)
    by (apply loads_one_path; reflexivity).
  destruct (writes_streams_only sample_prog sample_decoder sample_traceback
              sample_optionals sample_serializer sample_external sample_attach
              ["model.onnx"] sample_disk [[x00]])
    as (Hdisk & Hnet & _ & Hloaded).
  exact (conj H1 (conj Hdisk (conj Hnet (Hloaded image_model H1)))).
Defined.

(** C9 on [dynamic.onnx]: the symbolic batch dimension comes first. *)
Lemma unset_dimension_prints_zero_witness :
  sample_loads ["dynamic.onnx"] sample_disk dynamic_model /\
  (fst (sample_run ["dynamic.onnx"] sample_disk []) = 0%Z /\
   stdout (snd (sample_run ["dynamic.onnx"] sample_disk [])) =
     unlines (map record_of (input (graph dynamic_model))) /\
   record_of (tensor_input "tokens"
                [symbolic "batch"; fixed 128;
                 {| value := value_not_set; denotation := "" |}]) =
     "-d tokens [" ++
     String.concat ", " ([] ++ ["0"; repr_int 128; repr_int 0])%list ++ "]").
Proof.
  assert (H1 : sample_loads ["dynamic.onnx"] sample_disk dynamic_model)
    by (apply loads_one_path; reflexivity).
  refine (conj H1
            (unset_dimension_prints_zero sample_prog sample_decoder
               sample_traceback sample_optionals
               sample_serializer sample_external sample_attach
               ["dynamic.onnx"] sample_disk
               [] dynamic_model
               (tensor_input "tokens"
                  [symbolic "batch"; fixed 128;
                   {| value := value_not_set; denotation := "" |}])
               [] (symbolic "batch")
               [fixed 128; {| value := value_not_set; denotation := "" |}]
               H1 (or_introl eq_refl) eq_refl _)).
  intros v. discriminate.
Defined.

(** The same on the sample machine, as the text that reaches standard
    output. *)
Lemma dynamic_model_output :
  stdout (snd (sample_run ["dynamic.onnx"] sample_disk [])) =
  "-d tokens [0, 128, 0]" ++ newline.
Proof. vm_compute. reflexivity. Qed.

(** C10 on [model.onnx] and [retrained.onnx]: same inputs, different
    models. *)
Lemma output_depends_on_inputs_only_witness :
  sample_loads ["model.onnx"] sample_disk image_model /\
  sample_loads ["retrained.onnx"] sample_disk retrained_model /\
  input_view image_model = input_view retrained_model /\
  stdout (snd (sample_run ["model.onnx"] sample_disk [])) =
  stdout (snd (sample_run ["retrained.onnx"] sample_disk [[x00]])).
Proof.
  assert (H1 : sample_loads ["model.onnx"] sample_disk image_model)
    by (apply loads_one_path; reflexivity).
  assert (H2 : sample_loads ["retrained.onnx"] sample_disk retrained_model)
    by (apply loads_one_path; reflexivity).
  exact (conj H1 (conj H2 (conj eq_refl
           (output_depends_on_inputs_only sample_prog sample_decoder
              sample_traceback sample_optionals
              sample_serializer sample_external sample_attach
              ["model.onnx"] ["retrained.onnx"] sample_disk sample_disk
              [] [[x00]] image_model retrained_model H1 H2 eq_refl)))).
Defined.

(** ** The further properties on the sample machine *)

(** Well-formed and ill-formed UTF-8: plain text, a two-byte and a
    three-byte character; a stray byte, an overlong form, a surrogate, a
    code point past the last one, a character cut short. *)
Example utf8_examples :
  utf8 "input" = true /\
  utf8 (String "195" (String "169" "")) = true /\
  utf8 (String "226" (String "130" (String "172" ""))) = true /\
  utf8 (String "255" "") = false /\
  utf8 (String "192" (String "128" "")) = false /\
  utf8 (String "237" (String "160" (String "128" ""))) = false /\
  utf8 (String "244" (String "144" (String "128" (String "128" "")))) = false /\
  utf8 (String "226" (String "130" "")) = false.
Proof. repeat split; vm_compute; reflexivity. Qed.

(** X1 on the image input of [model.onnx] and that of [retrained.onnx],
    which differ in element type, denotation and doc string. *)
Lemma record_determines_name_and_shape_witness :
  utf8 (name image_input) = true /\
  utf8 (name (hd image_input (input (graph retrained_model)))) = true /\
  record_of image_input =
    record_of (hd image_input (input (graph retrained_model))) /\
  (name image_input = name (hd image_input (input (graph retrained_model))) /\
   map dim_value (dim (shape (tensor_type (type image_input)))) =
   map dim_value
     (dim (shape (tensor_type
        (type (hd image_input (input (graph retrained_model)))))))).
Proof.
  exact (conj eq_refl (conj eq_refl (conj eq_refl
           (record_determines_name_and_shape image_input
              (hd image_input (input (graph retrained_model)))
              eq_refl eq_refl eq_refl)))).
Defined.

(** X2 on [model.onnx] and [retrained.onnx]. *)
Lemma output_determines_inputs_witness :
  sample_loads ["model.onnx"] sample_disk image_model /\
  sample_loads ["retrained.onnx"] sample_disk retrained_model /\
  forallb (fun vi => utf8 (name vi) && no_newline (name vi))
    (input (graph image_model)) = true /\
  forallb (fun vi => utf8 (name vi) && no_newline (name vi))
    (input (graph retrained_model)) = true /\
  stdout (snd (sample_run ["model.onnx"] sample_disk [])) =
    stdout (snd (sample_run ["retrained.onnx"] sample_disk [])) /\
  input_view image_model = input_view retrained_model.
Proof.
  assert (H1 : sample_loads ["model.onnx"] sample_disk image_model)
    by (apply loads_one_path; reflexivity).
  assert (H2 : sample_loads ["retrained.onnx"] sample_disk retrained_model)
    by (apply loads_one_path; reflexivity).
  assert (H3 : stdout (snd (sample_run ["model.onnx"] sample_disk [])) =
               stdout (snd (sample_run ["retrained.onnx"] sample_disk [])))
    by (vm_compute; reflexivity).
  exact (conj H1 (conj H2 (conj eq_refl (conj eq_refl (conj H3
           (output_determines_inputs sample_prog sample_decoder
              sample_traceback sample_optionals
              sample_serializer sample_external sample_attach
              ["model.onnx"] ["retrained.onnx"] sample_disk sample_disk
              [] [] image_model retrained_model
              H1 H2 eq_refl eq_refl H3)))))).
Defined.

(** X4 on a disk whose every file decodes to the model with a sparse
    input. *)
Lemma shapeless_input_prints_empty_list_witness :
  loads sample_prog (fun _ => Some sparse_model) sample_optionals
    sample_serializer sample_external sample_attach
    ["sparse.onnx"] (fun _ => Content []) sparse_model /\
  In sparse_input (input (graph sparse_model)) /\
  ((forall t, type sparse_input <> tensor_type_set t) \/
   (exists t, type sparse_input = tensor_type_set t /\ shape_opt t = None)) /\
  (stdout (snd (run sample_prog (fun _ => Some sparse_model) sample_traceback
                  sample_optionals
                  sample_serializer sample_external sample_attach
                  ["sparse.onnx"] (fun _ => Content []) []))
   = unlines (map record_of (input (graph sparse_model))) /\
   record_of sparse_input = "-d " ++ name sparse_input ++ " []").
Proof.
  assert (H1 : loads sample_prog (fun _ => Some sparse_model) sample_optionals
                 sample_serializer sample_external sample_attach
                 ["sparse.onnx"] (fun _ => Content []) sparse_model)
    by (apply loads_one_path; reflexivity).
  assert (H2 : (forall t, type sparse_input <> tensor_type_set t) \/
               (exists t, type sparse_input = tensor_type_set t /\
                          shape_opt t = None))
    by (left; intros t; discriminate).
  exact (conj H1 (conj (or_introl eq_refl) (conj H2
           (shapeless_input_prints_empty_list sample_prog
              (fun _ => Some sparse_model) sample_traceback sample_optionals
              sample_serializer sample_external sample_attach
              ["sparse.onnx"] (fun _ => Content []) [] sparse_model
              sparse_input H1 (or_introl eq_refl) H2)))).
Defined.

(** The whole output for that model: three inputs, three empty shapes. *)
Lemma sparse_model_output :
  stdout (snd (run sample_prog (fun _ => Some sparse_model) sample_traceback
                 sample_optionals
                 sample_serializer sample_external sample_attach
                 ["sparse.onnx"] (fun _ => Content []) []))
  = "-d adjacency []" ++ newline ++ "-d frames []" ++ newline ++
    "-d features []" ++ newline.
Proof. vm_compute. reflexivity. Qed.

(** X5 on [split.onnx]: one input, one line feed in its name, two lines. *)
Lemma line_count_witness :
  sample_loads ["split.onnx"] sample_disk split_model /\
  forallb (fun vi => utf8 (name vi)) (input (graph split_model)) = true /\
  List.length (lines (stdout (snd (sample_run ["split.onnx"] sample_disk []))))
  = (List.length (input (graph split_model)) +
     list_sum (map (fun vi => count_newlines (name vi))
                   (input (graph split_model))))%nat.
Proof.
  assert (H1 : sample_loads ["split.onnx"] sample_disk split_model)
    by (apply loads_one_path; reflexivity).
  exact (conj H1 (conj eq_refl
           (line_count sample_prog sample_decoder sample_traceback
              sample_optionals sample_serializer sample_external sample_attach
              ["split.onnx"] sample_disk [] split_model H1 eq_refl))).
Defined.
